(** * Course enrollment domain model (models.py, main.py)

    A shallow embedding of the enrollment model: weekly schedule slots,
    courses, enrollments and the student's eligibility rules, followed by
    the properties of the rule engine.

    Python objects are compared by identity here ([Course] defines no
    [__eq__]), so a course is handled through a reference into a store of
    course objects; the store is total because a Python reference never
    dangles.  Where it matters that two fields may hold the same list
    object, the lists are objects too (module [Shared]). *)

From Stdlib Require Import ZArith List String Ascii Bool Lia DecimalString.
Import ListNotations.

Local Open Scope string_scope.
Local Open Scope Z_scope.

(** ** datetime.time (naive values, as main.py builds them) *)

Module Time.

Record t : Type := time
  { hour : N; minute : N; second : N; microsecond : N }.

(** Three-way comparison of two naive times: the tuples
    (hour, minute, second, microsecond) compared lexicographically. *)
Definition cmp (a b : t) : comparison :=
  match N.compare (hour a) (hour b) with
  | Eq =>
      match N.compare (minute a) (minute b) with
      | Eq =>
          match N.compare (second a) (second b) with
          | Eq => N.compare (microsecond a) (microsecond b)
          | c => c
          end
      | c => c
      end
  | c => c
  end.

(** [a <= b] is [a._cmp(b) <= 0]. *)
Definition le (a b : t) : bool :=
  match cmp a b with Gt => false | _ => true end.

(** [a >= b] is [a._cmp(b) >= 0]. *)
Definition ge (a b : t) : bool :=
  match cmp a b with Lt => false | _ => true end.

(** One decimal digit, and a number below 100 as two digits with a leading
    zero: the rendering of the [%H] and [%M] fields of [strftime]. *)
Definition digit (n : N) : ascii := ascii_of_N (48 + n).

Definition two_digits (n : N) : string :=
  String (digit (n / 10)) (String (digit (n mod 10)) EmptyString).

(** [t.strftime('%H:%M')] *)
Definition strftime_HM (a : t) : string :=
  two_digits (hour a) ++ ":" ++ two_digits (minute a).

(** The ranges the [time] constructor enforces on the two fields printed. *)
Definition in_range (a : t) : Prop := (hour a < 24)%N /\ (minute a < 60)%N.

End Time.

(** ** class Schedule *)

Module Schedule.

Record t : Type := Schedule
  { day : string; start : Time.t; end_ : Time.t }.

Definition overlaps_with (self other : t) : bool :=
  if negb (String.eqb (day self) (day other)) then false
  else negb (Time.le (end_ self) (start other)
             || Time.ge (start self) (end_ other)).

(** [__str__] *)
Definition str (self : t) : string :=
  day self ++ " from " ++ Time.strftime_HM (start self)
           ++ " to " ++ Time.strftime_HM (end_ self).

End Schedule.

(** ** class Course *)

(** Object identity of a course. *)
Definition ref : Type := positive.

Module Course.

Record t : Type := Course
  { code : string;
    name : string;
    credits : Z;
    semester : Z;
    prerequisites : list ref;
    schedules : list Schedule.t }.

(** [str(n)] for a Python int. *)
Definition str_int (n : Z) : string := NilZero.string_of_int (Z.to_int n).

(** [__str__] *)
Definition str (self : t) : string :=
  code self ++ " - " ++ name self ++ " (" ++ str_int (credits self) ++ " credits)".

(** [xs or []] for an optional list argument: [None] and the empty list
    both give a new empty list. *)
Definition or_empty {A : Type} (xs : option (list A)) : list A :=
  match xs with
  | Some (x :: rest) => x :: rest
  | Some [] => []
  | None => []
  end.

(** [__init__] *)
Definition init (code name : string) (credits semester : Z)
           (prerequisites : option (list ref))
           (schedules : option (list Schedule.t)) : t :=
  {| code := code; name := name; credits := credits; semester := semester;
     prerequisites := or_empty prerequisites;
     schedules := or_empty schedules |}.

End Course.

(** The course objects alive in the program, by identity. *)
Definition store : Type := ref -> Course.t.

(** ** class Enrollment *)

Module Enrollment.

Record t : Type := Enrollment { course : ref }.

(** The inner loop of [overlaps_with]: [s1] against each slot of the
    other course, returning at the first overlap. *)
Fixpoint overlaps_slot (s1 : Schedule.t) (others : list Schedule.t) : bool :=
  match others with
  | [] => false
  | s2 :: rest =>
      if Schedule.overlaps_with s1 s2 then true else overlaps_slot s1 rest
  end.

(** The outer loop of [overlaps_with]. *)
Fixpoint overlaps_slots (mine others : list Schedule.t) : bool :=
  match mine with
  | [] => false
  | s1 :: rest =>
      if overlaps_slot s1 others then true else overlaps_slots rest others
  end.

Definition overlaps_with (h : store) (self other_enrollment : t) : bool :=
  overlaps_slots (Course.schedules (h (course self)))
                 (Course.schedules (h (course other_enrollment))).

End Enrollment.

(** ** class Student *)

Module Student.

Record t : Type := Student
  { name : string;
    approved_courses : list ref;
    enrollments : list Enrollment.t }.

(** [Student(name)] *)
Definition init (n : string) : t :=
  {| name := n; approved_courses := []; enrollments := [] |}.

(** [sum(enrollment.course.credits for enrollment in self.enrollments)] *)
Definition total_credits (h : store) (self : t) : Z :=
  fold_left (fun acc e => acc + Course.credits (h (Enrollment.course e)))
            (enrollments self) 0.

(** [any(enrollment.course == course for enrollment in self.enrollments)] *)
Definition already_enrolled (self : t) (course : ref) : bool :=
  existsb (fun e => Pos.eqb (Enrollment.course e) course) (enrollments self).

(** [x in xs] on a list of course references. *)
Definition contains (xs : list ref) (x : ref) : bool :=
  existsb (Pos.eqb x) xs.

(** The prerequisite loop: the first prerequisite, in listed order, that
    is not in [approved_courses]. *)
Fixpoint first_missing (approved prereqs : list ref) : option ref :=
  match prereqs with
  | [] => None
  | prereq :: rest =>
      if negb (contains approved prereq) then Some prereq
      else first_missing approved rest
  end.

(** The overlap loop: the hypothetical enrollment against each active
    one, in enrollment order. *)
Fixpoint conflicts (h : store) (new_enrollment : Enrollment.t)
         (active : list Enrollment.t) : bool :=
  match active with
  | [] => false
  | enrollment :: rest =>
      if Enrollment.overlaps_with h new_enrollment enrollment then true
      else conflicts h new_enrollment rest
  end.

Definition msg_already : string := "You are already enrolled in this course.".
Definition msg_missing (prereq_code : string) : string :=
  "Missing prerequisite: " ++ prereq_code.
Definition msg_credits : string := "Exceeds credit limit.".
Definition msg_conflict : string := "Schedule conflict with another course.".
Definition msg_valid : string := "Enrollment valid.".

Definition can_enroll_in (h : store) (self : t) (course : ref) : bool * string :=
  if already_enrolled self course then (false, msg_already)
  else
    match first_missing (approved_courses self)
                        (Course.prerequisites (h course)) with
    | Some prereq => (false, msg_missing (Course.code (h prereq)))
    | None =>
        if total_credits h self + Course.credits (h course) >? 24
        then (false, msg_credits)
        else if conflicts h (Enrollment.Enrollment course) (enrollments self)
        then (false, msg_conflict)
        else (true, msg_valid)
    end.

End Student.

(** ** The program state: the course objects, one student, and the lines
    printed so far. *)

Record world : Type := World
  { heap : store;
    self : Student.t;
    stdout : list string }.

Definition print (line : string) (w : world) : world :=
  {| heap := heap w; self := self w; stdout := stdout w ++ [line] |}.

(** [self.enrollments.append(e)] *)
Definition append_enrollment (e : Enrollment.t) (w : world) : world :=
  {| heap := heap w;
     self := {| Student.name := Student.name (self w);
                Student.approved_courses := Student.approved_courses (self w);
                Student.enrollments := Student.enrollments (self w) ++ [e] |};
     stdout := stdout w |}.

(** [self.approved_courses.append(c)] *)
Definition append_approved (c : ref) (w : world) : world :=
  {| heap := heap w;
     self := {| Student.name := Student.name (self w);
                Student.approved_courses := Student.approved_courses (self w) ++ [c];
                Student.enrollments := Student.enrollments (self w) |};
     stdout := stdout w |}.

Definition total_credits (w : world) : Z := Student.total_credits (heap w) (self w).

Definition can_enroll_in (w : world) (course : ref) : bool * string :=
  Student.can_enroll_in (heap w) (self w) course.

Definition enroll_in (course : ref) (w : world) : world :=
  let (can_enroll, message) := can_enroll_in w course in
  if can_enroll then
    print ("✅ " ++ Student.name (self w) ++ " enrolled in: "
                 ++ Course.str (heap w course))
          (append_enrollment (Enrollment.Enrollment course) w)
  else
    print ("❌ Could not enroll in " ++ Course.str (heap w course) ++ ": " ++ message) w.

Definition pass_course (course : ref) (w : world) : world :=
  if negb (Student.contains (Student.approved_courses (self w)) course)
  then append_approved course w
  else w.

(** A program that has just built its courses and [Student(name)]. *)
Definition fresh (h : store) (n : string) : world :=
  {| heap := h; self := Student.init n; stdout := [] |}.

(** Calls a client can make on the student, and their execution in order. *)
Inductive call : Type :=
| EnrollIn (course : ref)
| PassCourse (course : ref).

Definition step (w : world) (c : call) : world :=
  match c with
  | EnrollIn course => enroll_in course w
  | PassCourse course => pass_course course w
  end.

Definition run (w : world) (calls : list call) : world := fold_left step calls w.

(** The courses of the successful [enroll_in] calls of a run, in call order. *)
Fixpoint successes (w : world) (calls : list call) : list ref :=
  match calls with
  | [] => []
  | c :: rest =>
      match c with
      | EnrollIn course =>
          if fst (can_enroll_in w course) then course :: successes (step w c) rest
          else successes (step w c) rest
      | PassCourse _ => successes (step w c) rest
      end
  end.

(** ** The four tests of [can_enroll_in], as the propositions they decide *)

Definition not_enrolled (w : world) (course : ref) : Prop :=
  forall e, In e (Student.enrollments (self w)) -> Enrollment.course e <> course.

Definition prerequisites_met (w : world) (course : ref) : Prop :=
  forall p, In p (Course.prerequisites (heap w course)) ->
            In p (Student.approved_courses (self w)).

Definition credits_fit (w : world) (course : ref) : Prop :=
  total_credits w + Course.credits (heap w course) <= 24.

Definition some_conflict (w : world) (course : ref) : Prop :=
  exists e s1 s2,
    In e (Student.enrollments (self w))
    /\ In s1 (Course.schedules (heap w course))
    /\ In s2 (Course.schedules (heap w (Enrollment.course e)))
    /\ Schedule.overlaps_with s1 s2 = true.

(** Neither of two enrollments conflicts with the other. *)
Definition apart (h : store) (e1 e2 : Enrollment.t) : Prop :=
  Enrollment.overlaps_with h e1 e2 = false
  /\ Enrollment.overlaps_with h e2 e1 = false.

(** ** main.py *)

Module Main.

Definition prog1_ref : ref := 1%positive.
Definition prog2_ref : ref := 2%positive.
Definition mat1_ref : ref := 3%positive.

Definition hm (h m : N) : Time.t := Time.time h m 0 0.

Definition prog1 : Course.t :=
  Course.Course "INF101" "Programming I" 4 1 []
    [Schedule.Schedule "Monday" (hm 8 0) (hm 10 0)].

Definition prog2 : Course.t :=
  Course.Course "INF201" "Programming II" 4 2 [prog1_ref]
    [Schedule.Schedule "Tuesday" (hm 10 0) (hm 12 0)].

Definition mat1 : Course.t :=
  Course.Course "MAT101" "Mathematics I" 6 1 []
    [Schedule.Schedule "Monday" (hm 9 30) (hm 11 30)].

Definition courses : store :=
  fun r => if Pos.eqb r prog1_ref then prog1
           else if Pos.eqb r prog2_ref then prog2
           else mat1.

Definition student : world := fresh courses "John Doe".

(** Lines 21-23. *)
Definition after_first_round : world :=
  enroll_in mat1_ref (enroll_in prog2_ref (enroll_in prog1_ref student)).

(** Lines 26-27. *)
Definition after_retry : world :=
  enroll_in mat1_ref (pass_course prog1_ref after_first_round).

End Main.

(** ** Sample states used to instantiate the properties *)

Module Examples.

(** A student enrolled in a 20-credit course who has passed it, and a
    4-credit course requiring it. *)
Definition big : Course.t := Course.Course "BIG500" "Thesis" 20 9 [] [].
Definition small : Course.t := Course.Course "SEM501" "Seminar" 4 10 [1%positive] [].
Definition courses : store := fun r => if Pos.eqb r 1 then big else small.
Definition at_twenty : world :=
  {| heap := courses;
     self := {| Student.name := "Ada";
                Student.approved_courses := [1%positive];
                Student.enrollments := [Enrollment.Enrollment 1%positive] |};
     stdout := [] |}.

(** A catalogue of courses built with the default arguments of
    [Course(...)]: no prerequisite list and no schedule list given. *)
Definition plain : Course.t :=
  Course.init "GEN100" "General Studies" 3 1 None None.
Definition plain_courses : store := fun _ => plain.

End Examples.

(** ** Lists as objects

    [Course.__init__] stores the list it is given ([prerequisites or []]
    keeps a non-empty argument as it is) and [pass_course] appends to
    [self.approved_courses] in place.  Both lists hold course references,
    so one list object can be a course's prerequisites and the student's
    approved courses at once.  This model gives those lists an identity:
    a course and the student hold a reference to a list object.  The
    enrollment list holds [Enrollment] objects and the schedule lists hold
    slots; no field of the other kind refers to them, and they stay values. *)

(** Object identity of a list of course references. *)
Definition lref : Type := positive.

Module Shared.

Record course : Type := Course
  { code : string;
    name : string;
    credits : Z;
    semester : Z;
    prerequisites : lref;
    schedules : list Schedule.t }.

Record student : Type := Student
  { student_name : string;
    approved_courses : lref;
    enrollments : list Enrollment.t }.

Record world : Type := World
  { courses : ref -> course;
    lists : lref -> list ref;
    self : student;
    stdout : list string }.

(** [prerequisites or []] in [Course.__init__]: the list object the new
    course keeps, where [new_list] is the object a list display [[]]
    would create. *)
Definition kept_list (ls : lref -> list ref) (argument : option lref)
           (new_list : lref) : lref :=
  match argument with
  | None => new_list
  | Some l => match ls l with
              | [] => new_list
              | _ :: _ => l
              end
  end.

(** A course as the program reads it, its prerequisite list looked up. *)
Definition view (w : world) : store :=
  fun r =>
    {| Course.code := code (courses w r);
       Course.name := name (courses w r);
       Course.credits := credits (courses w r);
       Course.semester := semester (courses w r);
       Course.prerequisites := lists w (prerequisites (courses w r));
       Course.schedules := schedules (courses w r) |}.

(** The student as the program reads it. *)
Definition student_view (w : world) : Student.t :=
  {| Student.name := student_name (self w);
     Student.approved_courses := lists w (approved_courses (self w));
     Student.enrollments := enrollments (self w) |}.

(** [can_enroll_in] only reads: it sees the courses and the student
    through their references. *)
Definition can_enroll_in (w : world) (course : ref) : bool * string :=
  Student.can_enroll_in (view w) (student_view w) course.

Definition print (line : string) (w : world) : world :=
  {| courses := courses w; lists := lists w; self := self w;
     stdout := stdout w ++ [line] |}.

(** [self.enrollments.append(e)] *)
Definition append_enrollment (e : Enrollment.t) (w : world) : world :=
  {| courses := courses w;
     lists := lists w;
     self := {| student_name := student_name (self w);
                approved_courses := approved_courses (self w);
                enrollments := enrollments (self w) ++ [e] |};
     stdout := stdout w |}.

(** [xs.append(c)] on the list object [xs]: every holder of [xs] sees the
    longer list. *)
Definition list_append (xs : lref) (c : ref) (w : world) : world :=
  {| courses := courses w;
     lists := fun l => if Pos.eqb l xs then (lists w xs ++ [c])%list else lists w l;
     self := self w;
     stdout := stdout w |}.

Definition enroll_in (course : ref) (w : world) : world :=
  let (can_enroll, message) := can_enroll_in w course in
  if can_enroll then
    print ("✅ " ++ student_name (self w) ++ " enrolled in: "
                 ++ Course.str (view w course))
          (append_enrollment (Enrollment.Enrollment course) w)
  else
    print ("❌ Could not enroll in " ++ Course.str (view w course)
                                     ++ ": " ++ message) w.

Definition pass_course (course : ref) (w : world) : world :=
  if negb (Student.contains (lists w (approved_courses (self w))) course)
  then list_append (approved_courses (self w)) course w
  else w.

(** A student who has passed course 1, and course 2 constructed
    afterwards with [prerequisites=student.approved_courses]: the list is
    not empty, so the course keeps that very object (list 1; list 2 is the
    empty list course 1 was given, list 3 the one a [[]] would make). *)
Definition aliased_lists : lref -> list ref :=
  fun l => if Pos.eqb l 1 then [1%positive] else [].

Definition aliased : world :=
  {| courses := fun r =>
       if Pos.eqb r 1
       then Course "INF101" "Programming I" 4 1 2%positive []
       else Course "INF201" "Programming II" 4 2
                   (kept_list aliased_lists (Some 1%positive) 3%positive) [];
     lists := aliased_lists;
     self := {| student_name := "John Doe";
                approved_courses := 1%positive;
                enrollments := [] |};
     stdout := [] |}.

(** The same two courses, each constructed with a list of its own. *)
Definition unshared : world :=
  {| courses := fun r =>
       if Pos.eqb r 1
       then Course "INF101" "Programming I" 4 1 2%positive []
       else Course "INF201" "Programming II" 4 2 3%positive [];
     lists := fun l => if Pos.eqb l 3 then [1%positive] else [];
     self := {| student_name := "John Doe";
                approved_courses := 1%positive;
                enrollments := [] |};
     stdout := [] |}.

End Shared.

(** A state with list objects, every list read out into a value. *)
Definition flatten (w : Shared.world) : world :=
  {| heap := Shared.view w;
     self := Shared.student_view w;
     stdout := Shared.stdout w |}.

(** * Properties *)

(** ** Comparison of times *)

Section TimeOrder.

Implicit Types a b : Time.t.

Lemma cmp_antisym a b : Time.cmp b a = CompOpp (Time.cmp a b).
Proof.
  unfold Time.cmp.
  rewrite (N.compare_antisym (Time.hour a) (Time.hour b)).
  rewrite (N.compare_antisym (Time.minute a) (Time.minute b)).
  rewrite (N.compare_antisym (Time.second a) (Time.second b)).
  rewrite (N.compare_antisym (Time.microsecond a) (Time.microsecond b)).
  destruct (Time.hour a ?= Time.hour b)%N; simpl; trivial.
  destruct (Time.minute a ?= Time.minute b)%N; simpl; trivial.
  destruct (Time.second a ?= Time.second b)%N; simpl; trivial.
Qed.

Lemma cmp_eq_iff a b : Time.cmp a b = Eq <-> a = b.
Proof.
  destruct a as [h1 m1 s1 u1], b as [h2 m2 s2 u2]; unfold Time.cmp; simpl.
  split.
  - destruct (N.compare_spec h1 h2) as [Eh | |]; try discriminate.
    destruct (N.compare_spec m1 m2) as [Em | |]; try discriminate.
    destruct (N.compare_spec s1 s2) as [Es | |]; try discriminate.
    intros Eu%N.compare_eq_iff. congruence.
  - intros [= -> -> -> ->]. now rewrite !N.compare_refl.
Qed.

Lemma ge_le_swap a b : Time.ge a b = Time.le b a.
Proof.
  unfold Time.ge, Time.le. rewrite (cmp_antisym a b).
  now destruct (Time.cmp a b).
Qed.

Lemma le_of_cmp_eq a b : Time.cmp a b = Eq -> Time.le a b = true.
Proof. unfold Time.le. now intros ->. Qed.

End TimeOrder.

(** ** Schedule slots *)

(** C9: slot overlap is symmetric, for any days and any times (no
    assumption that a slot starts before it ends). *)
Theorem schedule_overlaps_with_sym (a b : Schedule.t) :
  Schedule.overlaps_with a b = Schedule.overlaps_with b a.
Proof.
  unfold Schedule.overlaps_with.
  rewrite (String.eqb_sym (Schedule.day b) (Schedule.day a)).
  destruct (String.eqb (Schedule.day a) (Schedule.day b)); simpl; trivial.
  rewrite !ge_le_swap. f_equal. apply orb_comm.
Qed.

Lemma touching_slots_apart (x y : Schedule.t) :
  Schedule.day x = Schedule.day y ->
  Time.cmp (Schedule.end_ x) (Schedule.start y) = Eq ->
  Schedule.overlaps_with x y = false.
Proof.
  unfold Schedule.overlaps_with. intros Hd Hc.
  rewrite Hd, String.eqb_refl; simpl.
  now rewrite (le_of_cmp_eq _ _ Hc).
Qed.

(** C4: slots on different days never overlap; on the same day they
    overlap exactly when NOT (self.end <= other.start or
    self.start >= other.end); same-day slots where one ends exactly when
    the other starts ([a.end == b.start], that is, the comparison gives
    equal, which holds exactly for equal times) do not overlap. *)
Theorem schedule_overlaps_with_spec (a b : Schedule.t) :
  (Schedule.day a <> Schedule.day b -> Schedule.overlaps_with a b = false)
  /\ (Schedule.day a = Schedule.day b ->
      (Schedule.overlaps_with a b = true <->
       ~ (Time.le (Schedule.end_ a) (Schedule.start b) = true
          \/ Time.ge (Schedule.start a) (Schedule.end_ b) = true)))
  /\ (Schedule.day a = Schedule.day b ->
      Time.cmp (Schedule.end_ a) (Schedule.start b) = Eq ->
      Schedule.overlaps_with a b = false)
  /\ (Schedule.day a = Schedule.day b ->
      Schedule.end_ a = Schedule.start b ->
      Schedule.overlaps_with a b = false).
Proof.
  split; [| split; [| split]].
  - unfold Schedule.overlaps_with. intros Hd%String.eqb_neq. now rewrite Hd.
  - unfold Schedule.overlaps_with. intros Hd.
    rewrite Hd, String.eqb_refl; simpl. split.
    + intros Hn [Hl | Hg]; [rewrite Hl in Hn | rewrite Hg, orb_true_r in Hn];
        discriminate.
    + intros Hn.
      destruct (Time.le _ _); [exfalso; auto |].
      destruct (Time.ge _ _); [exfalso; auto | reflexivity].
  - apply touching_slots_apart.
  - intros Hd He. apply touching_slots_apart; [exact Hd | now apply cmp_eq_iff].
Qed.

(** ** Enrollment overlap *)

Section EnrollmentOverlap.

Lemma overlaps_slot_exists s1 others :
  Enrollment.overlaps_slot s1 others = true <->
  exists s2, In s2 others /\ Schedule.overlaps_with s1 s2 = true.
Proof.
  induction others as [| s2 rest IH]; simpl.
  - split; [discriminate | intros (? & [] & _)].
  - destruct (Schedule.overlaps_with s1 s2) eqn:E.
    + split; [exists s2; auto | trivial].
    + rewrite IH. split.
      * intros (s & Hin & Hs). exists s; auto.
      * intros (s & [<- | Hin] & Hs); [congruence | exists s; auto].
Qed.

Lemma overlaps_slots_exists mine others :
  Enrollment.overlaps_slots mine others = true <->
  exists s1 s2, In s1 mine /\ In s2 others /\ Schedule.overlaps_with s1 s2 = true.
Proof.
  induction mine as [| s1 rest IH]; simpl.
  - split; [discriminate | intros (? & ? & [] & _)].
  - destruct (Enrollment.overlaps_slot s1 others) eqn:E.
    + apply overlaps_slot_exists in E as (s2 & Hin & Hs).
      split; [exists s1, s2; auto | trivial].
    + rewrite IH. split.
      * intros (a & b & Ha & Hb & Hab). exists a, b; auto.
      * intros (a & b & [<- | Ha] & Hb & Hab).
        -- assert (Enrollment.overlaps_slot s1 others = true) as E'
             by (apply overlaps_slot_exists; exists b; auto).
           congruence.
        -- exists a, b; auto.
Qed.

Lemma overlaps_slots_nil_r mine : Enrollment.overlaps_slots mine [] = false.
Proof. induction mine; simpl; trivial. Qed.

End EnrollmentOverlap.

(** C6: two enrollments overlap exactly when some slot of the first
    course overlaps some slot of the second course; an enrollment whose
    course has no slots overlaps nothing, on either side. *)
Theorem enrollment_overlaps_with_spec (h : store) (e1 e2 : Enrollment.t) :
  (Enrollment.overlaps_with h e1 e2 = true <->
   exists s1 s2,
     In s1 (Course.schedules (h (Enrollment.course e1)))
     /\ In s2 (Course.schedules (h (Enrollment.course e2)))
     /\ Schedule.overlaps_with s1 s2 = true)
  /\ (Course.schedules (h (Enrollment.course e1)) = [] ->
      Enrollment.overlaps_with h e1 e2 = false
      /\ Enrollment.overlaps_with h e2 e1 = false).
Proof.
  unfold Enrollment.overlaps_with. split.
  - apply overlaps_slots_exists.
  - intros ->. split; [reflexivity | apply overlaps_slots_nil_r].
Qed.

(** ** The eligibility rules *)

Section Eligibility.

Lemma contains_In xs x : Student.contains xs x = true <-> In x xs.
Proof.
  unfold Student.contains. rewrite existsb_exists. split.
  - intros (y & Hin & ->%Pos.eqb_eq). exact Hin.
  - intros Hin. exists x. split; [exact Hin | apply Pos.eqb_refl].
Qed.

Lemma contains_false xs x : Student.contains xs x = false <-> ~ In x xs.
Proof.
  rewrite <- contains_In. destruct (Student.contains xs x); split; congruence.
Qed.

Lemma already_enrolled_exists s c :
  Student.already_enrolled s c = true <->
  exists e, In e (Student.enrollments s) /\ Enrollment.course e = c.
Proof.
  unfold Student.already_enrolled. rewrite existsb_exists.
  split; intros (e & Hin & He); exists e; split; trivial;
    now apply Pos.eqb_eq.
Qed.

(** The prerequisite loop stops at the first unmet prerequisite. *)
Lemma first_missing_split approved pre p post :
  (forall q, In q pre -> In q approved) ->
  ~ In p approved ->
  Student.first_missing approved (pre ++ p :: post) = Some p.
Proof.
  intros Hpre Hp. induction pre as [| q pre IH]; simpl.
  - apply contains_false in Hp. now rewrite Hp.
  - assert (Student.contains approved q = true) as ->
      by (apply contains_In, Hpre; now left).
    simpl. apply IH. intros r Hr. apply Hpre. now right.
Qed.

Lemma first_missing_none approved prereqs :
  Student.first_missing approved prereqs = None <->
  (forall p, In p prereqs -> In p approved).
Proof.
  induction prereqs as [| q rest IH]; simpl.
  - split; [intros _ p [] | trivial].
  - destruct (Student.contains approved q) eqn:E; simpl.
    + apply contains_In in E. rewrite IH. split.
      * intros H p [<- | Hp]; auto.
      * intros H p Hp. apply H. now right.
    + apply contains_false in E. split; [discriminate |].
      intros H. exfalso. apply E, H. now left.
Qed.

End Eligibility.

Section Credits.

Lemma total_credits_append (w : world) (e : Enrollment.t) :
  total_credits (append_enrollment e w)
  = total_credits w + Course.credits (heap w (Enrollment.course e)).
Proof.
  unfold total_credits, Student.total_credits; simpl.
  now rewrite fold_left_app.
Qed.

Lemma total_credits_print (line : string) (w : world) :
  total_credits (print line w) = total_credits w.
Proof. reflexivity. Qed.

Lemma not_enrolled_false (s : Student.t) (c : ref) :
  (forall e, In e (Student.enrollments s) -> Enrollment.course e <> c) ->
  Student.already_enrolled s c = false.
Proof.
  intros H. destruct (Student.already_enrolled s c) eqn:E; trivial.
  apply already_enrolled_exists in E as (e & Hin & He).
  now destruct (H e Hin).
Qed.

End Credits.

(** C5: once the already-enrolled and prerequisite rules pass,
    can_enroll_in fails with the credit-limit reason exactly when
    total_credits() + course.credits > 24; a resulting total of exactly
    24 passes the rule. *)
Theorem credit_limit_rule (w : world) (course : ref) :
  (forall e, In e (Student.enrollments (self w)) -> Enrollment.course e <> course) ->
  (forall p, In p (Course.prerequisites (heap w course)) ->
             In p (Student.approved_courses (self w))) ->
  (can_enroll_in w course = (false, "Exceeds credit limit.")
   <-> total_credits w + Course.credits (heap w course) > 24)
  /\ (total_credits w + Course.credits (heap w course) = 24 ->
      can_enroll_in w course <> (false, "Exceeds credit limit.")).
Proof.
  intros Hne%not_enrolled_false Hpre%first_missing_none.
  unfold can_enroll_in, Student.can_enroll_in, total_credits.
  rewrite Hne, Hpre.
  destruct (Z.gtb_spec (Student.total_credits (heap w) (self w)
                        + Course.credits (heap w course)) 24) as [Hgt | Hle].
  - split; [split; [lia | reflexivity] | lia].
  - destruct (Student.conflicts _ _ _);
      (split; [split; [discriminate | lia] | discriminate]).
Qed.

Lemma credit_limit_rule_witness :
  (can_enroll_in Examples.at_twenty 2%positive = (false, "Exceeds credit limit.")
   <-> total_credits Examples.at_twenty
       + Course.credits (heap Examples.at_twenty 2%positive) > 24)
  /\ (total_credits Examples.at_twenty
      + Course.credits (heap Examples.at_twenty 2%positive) = 24 ->
      can_enroll_in Examples.at_twenty 2%positive <> (false, "Exceeds credit limit.")).
Proof.
  apply (credit_limit_rule Examples.at_twenty 2%positive); simpl.
  - intros e [<- | []]. discriminate.
  - intros p [<- | []]. now left.
Defined.

(** ** The mutating operations *)

Section Operations.

Lemma enroll_in_success (w : world) (course : ref) :
  fst (can_enroll_in w course) = true ->
  exists line,
    enroll_in course w = print line (append_enrollment (Enrollment.Enrollment course) w).
Proof.
  unfold enroll_in. destruct (can_enroll_in w course) as [ok message]; simpl.
  intros ->. eexists. reflexivity.
Qed.

Lemma enroll_in_failure (w : world) (course : ref) :
  fst (can_enroll_in w course) = false ->
  exists line, enroll_in course w = print line w.
Proof.
  unfold enroll_in. destruct (can_enroll_in w course) as [ok message]; simpl.
  intros ->. eexists. reflexivity.
Qed.

(** A course that is accepted fits under the ceiling. *)
Lemma accepted_fits (w : world) (course : ref) :
  fst (can_enroll_in w course) = true ->
  total_credits w + Course.credits (heap w course) <= 24.
Proof.
  unfold can_enroll_in, Student.can_enroll_in, total_credits.
  destruct (Student.already_enrolled _ _); [discriminate |].
  destruct (Student.first_missing _ _); [discriminate |].
  destruct (Z.gtb_spec (Student.total_credits (heap w) (self w)
                        + Course.credits (heap w course)) 24); [discriminate |].
  intros _. assumption.
Qed.

Lemma enroll_in_total (w : world) (course : ref) :
  fst (can_enroll_in w course) = true ->
  total_credits (enroll_in course w)
  = total_credits w + Course.credits (heap w course).
Proof.
  intros Hok. destruct (enroll_in_success w course Hok) as [line ->].
  rewrite total_credits_print. apply total_credits_append.
Qed.

Lemma pass_course_enrollments (w : world) (course : ref) :
  Student.enrollments (self (pass_course course w)) = Student.enrollments (self w).
Proof.
  unfold pass_course. now destruct (negb _).
Qed.

Lemma step_keeps_bound (w : world) (c : call) :
  total_credits w <= 24 -> total_credits (step w c) <= 24.
Proof.
  intros Hw. destruct c as [course | course]; simpl.
  - destruct (fst (can_enroll_in w course)) eqn:Hok.
    + rewrite (enroll_in_total w course Hok). now apply accepted_fits.
    + destruct (enroll_in_failure w course Hok) as [line ->]. exact Hw.
  - unfold total_credits, Student.total_credits.
    rewrite pass_course_enrollments.
    unfold pass_course. destruct (negb _); exact Hw.
Qed.

Lemma run_keeps_bound (calls : list call) (w : world) :
  total_credits w <= 24 -> total_credits (run w calls) <= 24.
Proof.
  revert w. induction calls as [| c rest IH]; intros w Hw; simpl.
  - exact Hw.
  - apply IH, step_keeps_bound, Hw.
Qed.

Lemma contains_after_append (xs : list ref) (x : ref) :
  Student.contains (xs ++ [x]) x = true.
Proof.
  unfold Student.contains. rewrite existsb_app; simpl.
  rewrite Pos.eqb_refl. apply orb_true_iff. right. reflexivity.
Qed.

Lemma pass_course_twice (w : world) (course : ref) :
  pass_course course (pass_course course w) = pass_course course w.
Proof.
  unfold pass_course at 2 3.
  destruct (Student.contains (Student.approved_courses (self w)) course) eqn:E; simpl.
  - unfold pass_course. now rewrite E.
  - unfold pass_course; simpl. now rewrite contains_after_append.
Qed.

End Operations.

(** C2: from a freshly constructed student, after any number of completed
    enroll_in and pass_course calls the active enrollments sum to at most
    24 credits; pass_course and a refused enroll_in leave the enrollment
    list as it was, and an accepted enroll_in ends within the bound. *)
Theorem total_credits_never_exceeds_limit :
  (forall (h : store) (n : string) (calls : list call) (k : nat),
      total_credits (run (fresh h n) (firstn k calls)) <= 24)
  /\ (forall w course,
         Student.enrollments (self (pass_course course w))
         = Student.enrollments (self w))
  /\ (forall w course,
         fst (can_enroll_in w course) = false ->
         Student.enrollments (self (enroll_in course w))
         = Student.enrollments (self w))
  /\ (forall w course,
         fst (can_enroll_in w course) = true ->
         total_credits (enroll_in course w) <= 24).
Proof.
  repeat split.
  - intros h n calls k. apply run_keeps_bound.
    unfold total_credits, Student.total_credits; simpl. lia.
  - apply pass_course_enrollments.
  - intros w course Hno.
    now destruct (enroll_in_failure w course Hno) as [line ->].
  - intros w course Hok. rewrite (enroll_in_total w course Hok).
    now apply accepted_fits.
Qed.

(** C7: a refused enroll_in leaves the student (enrollments, approved
    courses, name) and the courses as they were; an accepted one appends
    exactly one Enrollment for that course at the end of the list, so the
    list grows by the accepted courses in call order. *)
Theorem enroll_in_effect (w : world) (course : ref) :
  (fst (can_enroll_in w course) = false ->
   self (enroll_in course w) = self w /\ heap (enroll_in course w) = heap w)
  /\ (fst (can_enroll_in w course) = true ->
      Student.enrollments (self (enroll_in course w))
      = (Student.enrollments (self w) ++ [Enrollment.Enrollment course])%list)
  /\ (forall calls,
         Student.enrollments (self (run w calls))
         = (Student.enrollments (self w)
            ++ map Enrollment.Enrollment (successes w calls))%list).
Proof.
  split; [| split].
  - intros Hno. now destruct (enroll_in_failure w course Hno) as [line ->].
  - intros Hok. now destruct (enroll_in_success w course Hok) as [line ->].
  - intros calls. revert w. unfold run.
    induction calls as [| c rest IH]; intros w; simpl.
    + now rewrite app_nil_r.
    + rewrite IH. destruct c as [c | c]; simpl.
      * destruct (fst (can_enroll_in w c)) eqn:Hc.
        -- destruct (enroll_in_success w c Hc) as [line ->]; simpl.
           now rewrite <- app_assoc.
        -- now destruct (enroll_in_failure w c Hc) as [line ->].
      * now rewrite pass_course_enrollments.
Qed.

(** C8: calling pass_course N >= 1 times leaves the state one call
    leaves; the first call appends the course only when it is not yet in
    approved_courses, and a further call changes nothing. *)
Theorem pass_course_idempotent (w : world) (course : ref) (n : nat) :
  (1 <= n)%nat ->
  Nat.iter n (pass_course course) w = pass_course course w
  /\ (In course (Student.approved_courses (self w)) -> pass_course course w = w)
  /\ (~ In course (Student.approved_courses (self w)) ->
      Student.approved_courses (self (pass_course course w))
      = (Student.approved_courses (self w) ++ [course])%list)
  /\ pass_course course (pass_course course w) = pass_course course w.
Proof.
  intros Hn. repeat split.
  - destruct n as [| n]; [lia |]. clear Hn.
    induction n as [| n IH]; [reflexivity |].
    change (pass_course course (Nat.iter (S n) (pass_course course) w)
            = pass_course course w).
    rewrite IH. apply pass_course_twice.
  - intros Hin%contains_In. unfold pass_course. now rewrite Hin.
  - intros Hout%contains_false. unfold pass_course. now rewrite Hout.
  - apply pass_course_twice.
Qed.

Lemma pass_course_idempotent_witness :
  Nat.iter 3 (pass_course 2%positive) Examples.at_twenty
  = pass_course 2%positive Examples.at_twenty
  /\ (In 2%positive (Student.approved_courses (self Examples.at_twenty)) ->
      pass_course 2%positive Examples.at_twenty = Examples.at_twenty)
  /\ (~ In 2%positive (Student.approved_courses (self Examples.at_twenty)) ->
      Student.approved_courses (self (pass_course 2%positive Examples.at_twenty))
      = (Student.approved_courses (self Examples.at_twenty) ++ [2%positive])%list)
  /\ pass_course 2%positive (pass_course 2%positive Examples.at_twenty)
     = pass_course 2%positive Examples.at_twenty.
Proof.
  apply (pass_course_idempotent Examples.at_twenty 2%positive 3). lia.
Defined.

(** ** The operations on list objects *)

Section ListObjects.

Variable w : Shared.world.
Variable course : ref.

(** With the lists read out, the operations are the ones on values. *)
Lemma shared_enroll_in_flatten :
  flatten (Shared.enroll_in course w) = enroll_in course (flatten w).
Proof.
  unfold Shared.enroll_in, enroll_in, Shared.can_enroll_in, can_enroll_in.
  simpl.
  destruct (Student.can_enroll_in (Shared.view w) (Shared.student_view w) course)
    as [[|] message]; reflexivity.
Qed.

Lemma shared_pass_course_student :
  Shared.student_view (Shared.pass_course course w)
  = self (pass_course course (flatten w)).
Proof.
  unfold Shared.pass_course, pass_course; simpl.
  destruct (Student.contains _ course); simpl; [reflexivity |].
  unfold Shared.student_view; simpl. now rewrite Pos.eqb_refl.
Qed.

Lemma shared_pass_course_view (r : ref) :
  Shared.prerequisites (Shared.courses w r) <> Shared.approved_courses (Shared.self w) ->
  Shared.view (Shared.pass_course course w) r = Shared.view w r.
Proof.
  intros Hr. unfold Shared.pass_course.
  destruct (negb _); [| reflexivity].
  unfold Shared.view; simpl.
  apply Pos.eqb_neq in Hr. now rewrite Hr.
Qed.

Lemma shared_pass_course_alias (r : ref) :
  Shared.prerequisites (Shared.courses w r) = Shared.approved_courses (Shared.self w) ->
  Course.prerequisites (Shared.view (Shared.pass_course course w) r)
  = Student.approved_courses (Shared.student_view (Shared.pass_course course w)).
Proof.
  intros Hr. unfold Shared.pass_course.
  destruct (negb _); unfold Shared.view, Shared.student_view; simpl;
    now rewrite Hr.
Qed.

End ListObjects.

(** C10, as the code has it.  enroll_in changes at most the enrollment
    list: approved courses, name and every course stay, also when it
    succeeds.  pass_course changes at most the approved list: enrollments
    and name stay and nothing is printed.  pass_course leaves a course as
    it was when the course's prerequisites are not the very list object
    that is the student's approved_courses; a course that holds that
    object sees the student's approved list after the call. *)
Theorem operations_frame_unshared (w : Shared.world) (course : ref) :
  (Student.approved_courses (Shared.student_view (Shared.enroll_in course w))
   = Student.approved_courses (Shared.student_view w)
   /\ Student.name (Shared.student_view (Shared.enroll_in course w))
      = Student.name (Shared.student_view w)
   /\ (forall r, Shared.view (Shared.enroll_in course w) r = Shared.view w r))
  /\ (Student.enrollments (Shared.student_view (Shared.pass_course course w))
      = Student.enrollments (Shared.student_view w)
      /\ Student.name (Shared.student_view (Shared.pass_course course w))
         = Student.name (Shared.student_view w)
      /\ Shared.stdout (Shared.pass_course course w) = Shared.stdout w)
  /\ (forall r,
         Shared.prerequisites (Shared.courses w r)
         <> Shared.approved_courses (Shared.self w) ->
         Shared.view (Shared.pass_course course w) r = Shared.view w r)
  /\ (forall r,
         Shared.prerequisites (Shared.courses w r)
         = Shared.approved_courses (Shared.self w) ->
         Course.prerequisites (Shared.view (Shared.pass_course course w) r)
         = Student.approved_courses
             (Shared.student_view (Shared.pass_course course w))).
Proof.
  split; [| split; [| split]].
  - unfold Shared.enroll_in.
    destruct (Shared.can_enroll_in w course) as [[|] message]; repeat split.
  - unfold Shared.pass_course. destruct (negb _); repeat split.
  - intros r. apply shared_pass_course_view.
  - intros r. apply shared_pass_course_alias.
Qed.

Lemma operations_frame_unshared_witness :
  Shared.view (Shared.pass_course 2%positive Shared.unshared) 2%positive
  = Shared.view Shared.unshared 2%positive.
Proof.
  apply (proj1 (proj2 (proj2 (operations_frame_unshared Shared.unshared 2%positive)))).
  simpl. discriminate.
Defined.

(** C10 as stated fails where a course was constructed with the student's
    approved list as its prerequisites: pass_course on that course appends
    the course to its own prerequisites. *)
Lemma pass_course_mutates_shared_prerequisites :
  Course.prerequisites (Shared.view Shared.aliased 2%positive) = [1%positive]
  /\ Course.prerequisites
       (Shared.view (Shared.pass_course 2%positive Shared.aliased) 2%positive)
     = [1%positive; 2%positive]
  /\ ~ (forall (w : Shared.world) (course r : ref),
          Shared.view (Shared.pass_course course w) r = Shared.view w r).
Proof.
  split; [reflexivity | split; [reflexivity |]].
  intros Hframe.
  specialize (Hframe Shared.aliased 2%positive 2%positive).
  apply (f_equal Course.prerequisites) in Hframe. discriminate Hframe.
Qed.

(** C1 (main.py): the first round accepts INF101, refuses INF201 for
    the missing prerequisite and refuses MAT101 for the schedule conflict;
    after pass_course(INF101) the student is still enrolled in INF101 and
    the retry of MAT101 is refused again for the schedule conflict. *)
Theorem main_scenario :
  stdout Main.after_first_round
  = ["✅ John Doe enrolled in: INF101 - Programming I (4 credits)";
     "❌ Could not enroll in INF201 - Programming II (4 credits): Missing prerequisite: INF101";
     "❌ Could not enroll in MAT101 - Mathematics I (6 credits): Schedule conflict with another course."]
  /\ Student.enrollments (self (pass_course Main.prog1_ref Main.after_first_round))
     = [Enrollment.Enrollment Main.prog1_ref]
  /\ can_enroll_in (pass_course Main.prog1_ref Main.after_first_round) Main.mat1_ref
     = (false, "Schedule conflict with another course.")
  /\ Student.enrollments (self Main.after_retry)
     = [Enrollment.Enrollment Main.prog1_ref]
  /\ total_credits Main.after_retry = 4.
Proof. repeat split; vm_compute; reflexivity. Qed.

(** * Further properties of the model *)

(** ** Slots as open intervals *)

Section Slots.

Implicit Types a b : Schedule.t.

Lemma le_false_lt (x y : Time.t) : Time.le x y = false <-> Time.cmp y x = Lt.
Proof.
  unfold Time.le. rewrite (cmp_antisym x y).
  destruct (Time.cmp x y); simpl; split; congruence.
Qed.

Lemma ge_false_lt (x y : Time.t) : Time.ge x y = false <-> Time.cmp x y = Lt.
Proof.
  unfold Time.ge. destruct (Time.cmp x y); split; congruence.
Qed.

Lemma slot_overlap_comm a b :
  Schedule.overlaps_with a b = Schedule.overlaps_with b a.
Proof.
  unfold Schedule.overlaps_with.
  rewrite (String.eqb_sym (Schedule.day b)), (ge_le_swap (Schedule.start a)),
    (ge_le_swap (Schedule.start b)).
  destruct (String.eqb _ _); simpl; [| reflexivity].
  now rewrite orb_comm.
Qed.

Lemma slot_overlap_lt a b :
  Schedule.overlaps_with a b = true <->
  Schedule.day a = Schedule.day b
  /\ Time.cmp (Schedule.start a) (Schedule.end_ b) = Lt
  /\ Time.cmp (Schedule.start b) (Schedule.end_ a) = Lt.
Proof.
  unfold Schedule.overlaps_with.
  destruct (String.eqb_spec (Schedule.day a) (Schedule.day b)) as [Hd | Hd]; simpl.
  - rewrite negb_true_iff, orb_false_iff, le_false_lt, ge_false_lt. tauto.
  - split; [discriminate | intros [H _]; contradiction].
Qed.

End Slots.

(** X1: two slots overlap exactly when they are on the same day and each
    starts strictly before the other ends; so a slot overlaps itself
    exactly when it starts strictly before it ends, and an empty slot
    (start == end) lying strictly inside another slot of that day does
    overlap it. *)
Theorem schedule_overlap_strict (a b : Schedule.t) :
  (Schedule.overlaps_with a b = true <->
   Schedule.day a = Schedule.day b
   /\ Time.cmp (Schedule.start a) (Schedule.end_ b) = Lt
   /\ Time.cmp (Schedule.start b) (Schedule.end_ a) = Lt)
  /\ (Schedule.overlaps_with a a = true <->
      Time.cmp (Schedule.start a) (Schedule.end_ a) = Lt)
  /\ (Schedule.start a = Schedule.end_ a ->
      (Schedule.overlaps_with a b = true <->
       Schedule.day a = Schedule.day b
       /\ Time.cmp (Schedule.start b) (Schedule.start a) = Lt
       /\ Time.cmp (Schedule.start a) (Schedule.end_ b) = Lt)).
Proof.
  split; [apply slot_overlap_lt | split].
  - rewrite slot_overlap_lt. tauto.
  - intros He. rewrite slot_overlap_lt, <- He. tauto.
Qed.

(** ** Enrollment overlap is symmetric *)

Lemma overlaps_slots_comm (l1 l2 : list Schedule.t) :
  Enrollment.overlaps_slots l1 l2 = Enrollment.overlaps_slots l2 l1.
Proof.
  assert (forall xs ys, Enrollment.overlaps_slots xs ys = true ->
                        Enrollment.overlaps_slots ys xs = true) as Hswap.
  { intros xs ys (s1 & s2 & H1 & H2 & Hs)%overlaps_slots_exists.
    apply overlaps_slots_exists. exists s2, s1.
    rewrite slot_overlap_comm. auto. }
  destruct (Enrollment.overlaps_slots l1 l2) eqn:E12.
  - symmetry. now apply Hswap.
  - destruct (Enrollment.overlaps_slots l2 l1) eqn:E21; trivial.
    apply Hswap in E21. congruence.
Qed.

(** X2: whether two enrollments conflict does not depend on which one is
    asked: the cross-product loop gives the same answer with its arguments
    swapped. *)
Theorem enrollment_overlaps_with_sym (h : store) (e1 e2 : Enrollment.t) :
  Enrollment.overlaps_with h e1 e2 = Enrollment.overlaps_with h e2 e1.
Proof.
  unfold Enrollment.overlaps_with. apply overlaps_slots_comm.
Qed.

(** ** The decision of [can_enroll_in] *)

Section Decision.

Variable w : world.
Variable course : ref.

Lemma conflicts_exists (h : store) (new_enrollment : Enrollment.t)
      (active : list Enrollment.t) :
  Student.conflicts h new_enrollment active = true <->
  exists e, In e active /\ Enrollment.overlaps_with h new_enrollment e = true.
Proof.
  induction active as [| e rest IH]; simpl.
  - split; [discriminate | intros (? & [] & _)].
  - destruct (Enrollment.overlaps_with h new_enrollment e) eqn:E.
    + split; [exists e; auto | trivial].
    + rewrite IH. split.
      * intros (x & Hin & Hx). exists x; auto.
      * intros (x & [<- | Hin] & Hx); [congruence | exists x; auto].
Qed.

Lemma already_enrolled_false_iff :
  Student.already_enrolled (self w) course = false <-> not_enrolled w course.
Proof.
  split; [| apply not_enrolled_false].
  intros E e Hin He.
  assert (Student.already_enrolled (self w) course = true) as E'
    by (apply already_enrolled_exists; exists e; auto).
  congruence.
Qed.

Lemma conflicts_iff :
  Student.conflicts (heap w) (Enrollment.Enrollment course)
                    (Student.enrollments (self w)) = true <-> some_conflict w course.
Proof.
  rewrite conflicts_exists. unfold some_conflict, Enrollment.overlaps_with; simpl.
  split.
  - intros (e & Hin & (s1 & s2 & H1 & H2 & Hs)%overlaps_slots_exists).
    exists e, s1, s2; auto.
  - intros (e & s1 & s2 & Hin & H1 & H2 & Hs). exists e. split; [exact Hin |].
    apply overlaps_slots_exists. exists s1, s2; auto.
Qed.

Lemma accepted_iff :
  can_enroll_in w course = (true, "Enrollment valid.") <->
  not_enrolled w course /\ prerequisites_met w course
  /\ credits_fit w course /\ ~ some_conflict w course.
Proof.
  rewrite <- already_enrolled_false_iff, <- conflicts_iff.
  unfold prerequisites_met. rewrite <- first_missing_none.
  unfold credits_fit, can_enroll_in, Student.can_enroll_in, total_credits.
  destruct (Student.already_enrolled _ _);
    [split; [discriminate | intros (? & _); discriminate] |].
  destruct (Student.first_missing _ _);
    [split; [discriminate | intros (_ & ? & _); discriminate] |].
  destruct (Z.gtb_spec (Student.total_credits (heap w) (self w)
                        + Course.credits (heap w course)) 24) as [Hgt | Hle];
    [split; [discriminate | intros (_ & _ & ? & _); lia] |].
  destruct (Student.conflicts _ _ _).
  - split; [discriminate | intros (_ & _ & _ & Hc); now destruct Hc].
  - split; [intros _; repeat split; auto; discriminate | reflexivity].
Qed.

Lemma flag_iff_valid :
  fst (can_enroll_in w course) = true <->
  can_enroll_in w course = (true, "Enrollment valid.").
Proof.
  unfold can_enroll_in, Student.can_enroll_in.
  destruct (Student.already_enrolled _ _); [split; discriminate |].
  destruct (Student.first_missing _ _); [split; discriminate |].
  destruct (_ >? _); [split; discriminate |].
  destruct (Student.conflicts _ _ _); [split; discriminate |].
  split; reflexivity.
Qed.

Lemma conflict_reason_iff :
  can_enroll_in w course = (false, "Schedule conflict with another course.") <->
  not_enrolled w course /\ prerequisites_met w course
  /\ credits_fit w course /\ some_conflict w course.
Proof.
  rewrite <- already_enrolled_false_iff, <- conflicts_iff.
  unfold prerequisites_met. rewrite <- first_missing_none.
  unfold credits_fit, can_enroll_in, Student.can_enroll_in, total_credits.
  destruct (Student.already_enrolled _ _);
    [split; [discriminate | intros (? & _); discriminate] |].
  destruct (Student.first_missing _ _);
    [split; [discriminate | intros (_ & ? & _); discriminate] |].
  destruct (Z.gtb_spec (Student.total_credits (heap w) (self w)
                        + Course.credits (heap w course)) 24) as [Hgt | Hle];
    [split; [discriminate | intros (_ & _ & ? & _); lia] |].
  destruct (Student.conflicts _ _ _).
  - split; [intros _; repeat split; auto | reflexivity].
  - split; [discriminate | intros (_ & _ & _ & ?); discriminate].
Qed.

End Decision.

(** ** The order of the four rules *)

Section RuleOrder.

Variable w : world.
Variable course : ref.

Lemma rule_already :
  (exists e, In e (Student.enrollments (self w)) /\ Enrollment.course e = course) ->
  can_enroll_in w course = (false, "You are already enrolled in this course.").
Proof.
  unfold can_enroll_in, Student.can_enroll_in.
  intros He%already_enrolled_exists. now rewrite He.
Qed.

Lemma rule_missing (pre : list ref) (p : ref) (post : list ref) :
  ~ (exists e, In e (Student.enrollments (self w)) /\ Enrollment.course e = course) ->
  Course.prerequisites (heap w course) = (pre ++ p :: post)%list ->
  (forall q, In q pre -> In q (Student.approved_courses (self w))) ->
  ~ In p (Student.approved_courses (self w)) ->
  can_enroll_in w course
  = (false, "Missing prerequisite: " ++ Course.code (heap w p)).
Proof.
  unfold can_enroll_in, Student.can_enroll_in.
  intros Hne Hpr Hpre Hp.
  destruct (Student.already_enrolled (self w) course) eqn:E.
  - exfalso. apply Hne. now apply already_enrolled_exists.
  - rewrite Hpr, (first_missing_split _ pre p post Hpre Hp). reflexivity.
Qed.

Lemma not_enrolled_of_none :
  ~ (exists e, In e (Student.enrollments (self w)) /\ Enrollment.course e = course) ->
  not_enrolled w course.
Proof. intros Hne e Hin He. apply Hne. exists e. auto. Qed.

Lemma rule_credits :
  not_enrolled w course -> prerequisites_met w course ->
  total_credits w + Course.credits (heap w course) > 24 ->
  can_enroll_in w course = (false, "Exceeds credit limit.").
Proof.
  intros Hne%not_enrolled_false Hpre%first_missing_none Hgt.
  unfold can_enroll_in, Student.can_enroll_in. rewrite Hne, Hpre.
  fold (total_credits w).
  destruct (Z.gtb_spec (total_credits w + Course.credits (heap w course)) 24);
    [reflexivity | lia].
Qed.

(** Rule 4 as the loop states it, and as a pair of overlapping slots. *)
Lemma conflict_forms :
  (exists e, In e (Student.enrollments (self w))
             /\ Enrollment.overlaps_with (heap w) (Enrollment.Enrollment course) e
                = true)
  <-> some_conflict w course.
Proof.
  rewrite <- conflicts_iff. symmetry. apply conflicts_exists.
Qed.

Lemma flag_iff_message :
  fst (can_enroll_in w course) = true <->
  snd (can_enroll_in w course) = "Enrollment valid.".
Proof.
  unfold can_enroll_in, Student.can_enroll_in.
  destruct (Student.already_enrolled _ _); [split; discriminate |].
  destruct (Student.first_missing _ _); [split; discriminate |].
  destruct (_ >? _); [split; discriminate |].
  destruct (Student.conflicts _ _ _); [split; discriminate |].
  split; reflexivity.
Qed.

End RuleOrder.

(** C3: the four rules are tried in the order already-enrolled,
    prerequisites, credit limit, schedule overlap, and the first one that
    fails gives the answer.  The already-enrolled rule wins over every
    other failing rule; otherwise the first prerequisite, in listed order,
    that is not in approved_courses is the one named, however many are
    missing after it; with those two rules passed, exceeding 24 credits
    gives the credit-limit reason whether or not a slot overlaps; only
    when the credits fit does an overlap give the schedule-conflict
    reason; and with no rule failing the answer is the acceptance. *)
Theorem can_enroll_in_rule_order (w : world) (course : ref) :
  ((exists e, In e (Student.enrollments (self w)) /\ Enrollment.course e = course) ->
   can_enroll_in w course = (false, "You are already enrolled in this course."))
  /\ (~ (exists e, In e (Student.enrollments (self w)) /\ Enrollment.course e = course) ->
      forall pre p post,
        Course.prerequisites (heap w course) = (pre ++ p :: post)%list ->
        (forall q, In q pre -> In q (Student.approved_courses (self w))) ->
        ~ In p (Student.approved_courses (self w)) ->
        can_enroll_in w course
        = (false, "Missing prerequisite: " ++ Course.code (heap w p)))
  /\ (~ (exists e, In e (Student.enrollments (self w)) /\ Enrollment.course e = course) ->
      (forall p, In p (Course.prerequisites (heap w course)) ->
                 In p (Student.approved_courses (self w))) ->
      (total_credits w + Course.credits (heap w course) > 24 ->
       can_enroll_in w course = (false, "Exceeds credit limit."))
      /\ (total_credits w + Course.credits (heap w course) <= 24 ->
          (exists e, In e (Student.enrollments (self w))
                     /\ Enrollment.overlaps_with
                          (heap w) (Enrollment.Enrollment course) e = true) ->
          can_enroll_in w course
          = (false, "Schedule conflict with another course."))
      /\ (total_credits w + Course.credits (heap w course) <= 24 ->
          ~ (exists e, In e (Student.enrollments (self w))
                       /\ Enrollment.overlaps_with
                            (heap w) (Enrollment.Enrollment course) e = true) ->
          can_enroll_in w course = (true, "Enrollment valid."))).
Proof.
  split; [apply rule_already | split].
  - intros Hne pre p post. now apply rule_missing.
  - intros Hne%not_enrolled_of_none Hpre. split; [| split].
    + now apply rule_credits.
    + intros Hfit Hc%conflict_forms. apply conflict_reason_iff. auto.
    + intros Hfit Hc. apply accepted_iff. repeat split; trivial.
      intros Hs%conflict_forms. contradiction.
Qed.

(** X3: can_enroll_in accepts a course exactly when all four rules hold:
    no active enrollment is for that course object, every prerequisite is
    in approved_courses, the credits fit under 24, and no slot of the
    course overlaps a slot of an actively enrolled course; the flag is
    true exactly when the message is "Enrollment valid.". *)
Theorem can_enroll_in_accepts_iff (w : world) (course : ref) :
  (can_enroll_in w course = (true, "Enrollment valid.") <->
   (forall e, In e (Student.enrollments (self w)) -> Enrollment.course e <> course)
   /\ (forall p, In p (Course.prerequisites (heap w course)) ->
                 In p (Student.approved_courses (self w)))
   /\ total_credits w + Course.credits (heap w course) <= 24
   /\ ~ (exists e s1 s2,
            In e (Student.enrollments (self w))
            /\ In s1 (Course.schedules (heap w course))
            /\ In s2 (Course.schedules (heap w (Enrollment.course e)))
            /\ Schedule.overlaps_with s1 s2 = true))
  /\ (fst (can_enroll_in w course) = true <->
      can_enroll_in w course = (true, "Enrollment valid."))
  /\ (fst (can_enroll_in w course) = true <->
      snd (can_enroll_in w course) = "Enrollment valid.").
Proof.
  split; [apply accepted_iff | split; [apply flag_iff_valid | apply flag_iff_message]].
Qed.

(** X4: the schedule-conflict reason is returned exactly when the first
    three rules pass and some slot of the course overlaps a slot of an
    actively enrolled course; when such an overlap is present and an
    earlier rule fails as well, the earlier rule's reason is returned: the
    already-enrolled reason, else the first missing prerequisite, else the
    exceeded credit limit. *)
Theorem can_enroll_in_conflict_iff (w : world) (course : ref) :
  (can_enroll_in w course = (false, "Schedule conflict with another course.") <->
   (forall e, In e (Student.enrollments (self w)) -> Enrollment.course e <> course)
   /\ (forall p, In p (Course.prerequisites (heap w course)) ->
                 In p (Student.approved_courses (self w)))
   /\ total_credits w + Course.credits (heap w course) <= 24
   /\ (exists e s1 s2,
          In e (Student.enrollments (self w))
          /\ In s1 (Course.schedules (heap w course))
          /\ In s2 (Course.schedules (heap w (Enrollment.course e)))
          /\ Schedule.overlaps_with s1 s2 = true))
  /\ ((exists e s1 s2,
          In e (Student.enrollments (self w))
          /\ In s1 (Course.schedules (heap w course))
          /\ In s2 (Course.schedules (heap w (Enrollment.course e)))
          /\ Schedule.overlaps_with s1 s2 = true) ->
      ((exists e, In e (Student.enrollments (self w))
                  /\ Enrollment.course e = course) ->
       can_enroll_in w course = (false, "You are already enrolled in this course."))
      /\ ((forall e, In e (Student.enrollments (self w)) ->
                     Enrollment.course e <> course) ->
          forall pre p post,
            Course.prerequisites (heap w course) = (pre ++ p :: post)%list ->
            (forall q, In q pre -> In q (Student.approved_courses (self w))) ->
            ~ In p (Student.approved_courses (self w)) ->
            can_enroll_in w course
            = (false, "Missing prerequisite: " ++ Course.code (heap w p)))
      /\ ((forall e, In e (Student.enrollments (self w)) ->
                     Enrollment.course e <> course) ->
          (forall p, In p (Course.prerequisites (heap w course)) ->
                     In p (Student.approved_courses (self w))) ->
          total_credits w + Course.credits (heap w course) > 24 ->
          can_enroll_in w course = (false, "Exceeds credit limit."))).
Proof.
  split; [apply conflict_reason_iff |].
  intros _. split; [apply rule_already | split].
  - intros Hne pre p post. apply rule_missing.
    intros (e & Hin & He). exact (Hne e Hin He).
  - apply rule_credits.
Qed.

(** ** Invariants of a student's history *)

Section History.

(** Whatever every call preserves holds after a whole run. *)
Lemma run_invariant (P : world -> Prop) :
  (forall w c, P w -> P (step w c)) ->
  forall calls w, P w -> P (run w calls).
Proof.
  intros Hstep calls. unfold run.
  induction calls as [| c rest IH]; intros w Hw; simpl; auto.
Qed.

(** The three ways a call can end. *)
Lemma step_cases (w : world) (c : call) :
  (exists course line,
      c = EnrollIn course /\ fst (can_enroll_in w course) = true
      /\ step w c = print line (append_enrollment (Enrollment.Enrollment course) w))
  \/ (exists line, step w c = print line w)
  \/ (exists course,
         c = PassCourse course
         /\ Student.contains (Student.approved_courses (self w)) course = false
         /\ step w c = append_approved course w)
  \/ step w c = w.
Proof.
  destruct c as [course | course]; simpl.
  - destruct (fst (can_enroll_in w course)) eqn:Hok.
    + destruct (enroll_in_success w course Hok) as [line E].
      left. exists course, line. auto.
    + destruct (enroll_in_failure w course Hok) as [line E].
      right; left. exists line. exact E.
  - unfold pass_course.
    destruct (Student.contains (Student.approved_courses (self w)) course) eqn:E;
      simpl.
    + right; right; right. reflexivity.
    + right; right; left. exists course. auto.
Qed.

Lemma step_heap (w : world) (c : call) : heap (step w c) = heap w.
Proof.
  destruct (step_cases w c)
    as [(x & l & _ & _ & ->) | [(l & ->) | [(x & _ & _ & ->) | ->]]];
    reflexivity.
Qed.

Lemma run_heap (w : world) (calls : list call) : heap (run w calls) = heap w.
Proof.
  apply (run_invariant (fun w' => heap w' = heap w)); [| reflexivity].
  intros w' c H. now rewrite step_heap.
Qed.

(** What an accepted course has passed, test by test. *)
Lemma accepted_tests (w : world) (course : ref) :
  fst (can_enroll_in w course) = true ->
  Student.already_enrolled (self w) course = false
  /\ Student.first_missing (Student.approved_courses (self w))
                           (Course.prerequisites (heap w course)) = None
  /\ Student.conflicts (heap w) (Enrollment.Enrollment course)
                       (Student.enrollments (self w)) = false.
Proof.
  unfold can_enroll_in, Student.can_enroll_in.
  destruct (Student.already_enrolled _ _); [discriminate |].
  destruct (Student.first_missing _ _); [discriminate |].
  destruct (_ >? _); [discriminate |].
  destruct (Student.conflicts _ _ _); [discriminate |].
  auto.
Qed.

Lemma NoDup_snoc {A : Type} (l : list A) (x : A) :
  NoDup l -> ~ In x l -> NoDup (l ++ [x]).
Proof.
  intros Hl Hx. apply NoDup_app; trivial.
  - constructor; [intros [] | constructor].
  - intros a Ha [<- | []]. contradiction.
Qed.

Lemma enrolled_courses_distinct_step (w : world) (c : call) :
  NoDup (map Enrollment.course (Student.enrollments (self w))) ->
  NoDup (map Enrollment.course (Student.enrollments (self (step w c)))).
Proof.
  intros Hw.
  destruct (step_cases w c)
    as [(x & l & _ & Hok & ->) | [(l & ->) | [(x & _ & _ & ->) | ->]]];
    simpl; trivial.
  rewrite map_app; simpl. apply NoDup_snoc; [exact Hw |].
  apply accepted_tests in Hok as (Hne & _).
  intros (e & He & Hin)%in_map_iff.
  assert (Student.already_enrolled (self w) x = true) as E
    by (apply already_enrolled_exists; exists e; auto).
  congruence.
Qed.

Lemma approved_distinct_step (w : world) (c : call) :
  NoDup (Student.approved_courses (self w)) ->
  NoDup (Student.approved_courses (self (step w c))).
Proof.
  intros Hw.
  destruct (step_cases w c)
    as [(x & l & _ & _ & ->) | [(l & ->) | [(x & _ & Hout & ->) | ->]]];
    simpl; trivial.
  apply NoDup_snoc; [exact Hw | now apply contains_false].
Qed.

Lemma approved_after_step (w : world) (c : call) (p : ref) :
  In p (Student.approved_courses (self (step w c))) <->
  In p (Student.approved_courses (self w)) \/ c = PassCourse p.
Proof.
  destruct c as [course | course]; simpl.
  - assert (Student.approved_courses (self (enroll_in course w))
            = Student.approved_courses (self w)) as ->.
    { destruct (fst (can_enroll_in w course)) eqn:Hok.
      - now destruct (enroll_in_success w course Hok) as [line ->].
      - now destruct (enroll_in_failure w course Hok) as [line ->]. }
    split; [auto | intros [H | H]; [exact H | discriminate]].
  - unfold pass_course.
    destruct (Student.contains (Student.approved_courses (self w)) course) eqn:E;
      simpl.
    + apply contains_In in E. split; [auto |].
      intros [H | [= ->]]; assumption.
    + rewrite in_app_iff; simpl. split.
      * intros [H | [-> | []]]; auto.
      * intros [H | [= ->]]; auto.
Qed.

Lemma approved_after_run (calls : list call) (w : world) (p : ref) :
  In p (Student.approved_courses (self (run w calls))) <->
  In p (Student.approved_courses (self w)) \/ In (PassCourse p) calls.
Proof.
  revert w. unfold run.
  induction calls as [| c rest IH]; intros w; simpl.
  - tauto.
  - rewrite IH, approved_after_step. split.
    + intros [[H | ->] | H]; auto.
    + intros [H | [-> | H]]; auto.
Qed.

End History.

(** X5: starting from a new student, after any sequence of enroll_in and
    pass_course calls no course object is enrolled twice. *)
Theorem enrolled_courses_distinct (h : store) (n : string) (calls : list call) :
  NoDup (map Enrollment.course
             (Student.enrollments (self (run (fresh h n) calls)))).
Proof.
  apply (run_invariant
           (fun w => NoDup (map Enrollment.course (Student.enrollments (self w))))).
  - apply enrolled_courses_distinct_step.
  - constructor.
Qed.

(** X6: starting from a new student, approved_courses never holds a course
    object twice, and it holds exactly the courses pass_course was called
    with, whether or not the student ever enrolled in them. *)
Theorem approved_courses_are_the_passed (h : store) (n : string)
        (calls : list call) :
  NoDup (Student.approved_courses (self (run (fresh h n) calls)))
  /\ (forall p,
         In p (Student.approved_courses (self (run (fresh h n) calls)))
         <-> In (PassCourse p) calls).
Proof.
  split.
  - apply (run_invariant (fun w => NoDup (Student.approved_courses (self w)))).
    + apply approved_distinct_step.
    + constructor.
  - intros p. rewrite approved_after_run. simpl. tauto.
Qed.

Section Timetable.

Lemma FOP_snoc {A : Type} (R : A -> A -> Prop) (l : list A) (x : A) :
  ForallOrdPairs R l -> Forall (fun a => R a x) l ->
  ForallOrdPairs R (l ++ [x]).
Proof.
  induction 1 as [| a l Ha Hl IH]; intros Hx; simpl.
  - repeat constructor.
  - inversion Hx as [| ? ? Hax Hlx]; subst. constructor.
    + apply Forall_app. split; [exact Ha | repeat constructor; exact Hax].
    + now apply IH.
Qed.

Lemma no_conflict_apart (h : store) (new_enrollment : Enrollment.t)
      (active : list Enrollment.t) :
  Student.conflicts h new_enrollment active = false ->
  Forall (fun e => apart h e new_enrollment) active.
Proof.
  intros Hc. apply Forall_forall. intros e Hin.
  assert (Enrollment.overlaps_with h new_enrollment e = false) as E.
  { destruct (Enrollment.overlaps_with h new_enrollment e) eqn:E; trivial.
    assert (Student.conflicts h new_enrollment active = true)
      by (apply conflicts_exists; exists e; auto).
    congruence. }
  split; [| exact E].
  unfold Enrollment.overlaps_with in *. now rewrite overlaps_slots_comm.
Qed.

Lemma timetable_step (w : world) (c : call) :
  ForallOrdPairs (apart (heap w)) (Student.enrollments (self w)) ->
  ForallOrdPairs (apart (heap (step w c))) (Student.enrollments (self (step w c))).
Proof.
  intros Hw.
  destruct (step_cases w c)
    as [(x & l & _ & Hok & ->) | [(l & ->) | [(x & _ & _ & ->) | ->]]];
    simpl; trivial.
  apply FOP_snoc; [exact Hw |].
  apply no_conflict_apart. now apply accepted_tests in Hok.
Qed.

Lemma timetable_run (h : store) (n : string) (calls : list call) :
  ForallOrdPairs (apart h) (Student.enrollments (self (run (fresh h n) calls))).
Proof.
  rewrite <- (run_heap (fresh h n) calls) at 1.
  apply (run_invariant
           (fun w => ForallOrdPairs (apart (heap w)) (Student.enrollments (self w)))).
  - apply timetable_step.
  - constructor.
Qed.

Lemma requirements_step (w : world) (c : call) :
  Forall (fun e => Forall (fun p => In p (Student.approved_courses (self w)))
                          (Course.prerequisites (heap w (Enrollment.course e))))
         (Student.enrollments (self w)) ->
  Forall (fun e => Forall (fun p => In p (Student.approved_courses (self (step w c))))
                          (Course.prerequisites (heap (step w c) (Enrollment.course e))))
         (Student.enrollments (self (step w c))).
Proof.
  intros Hw.
  destruct (step_cases w c)
    as [(x & l & _ & Hok & ->) | [(l & ->) | [(x & _ & _ & ->) | ->]]];
    simpl; trivial.
  - apply Forall_app. split; [exact Hw |].
    repeat constructor; simpl. apply Forall_forall.
    apply accepted_tests in Hok as (_ & Hpre & _).
    now apply first_missing_none.
  - eapply Forall_impl; [| exact Hw]. intros e He.
    eapply Forall_impl; [| exact He]. intros p Hp.
    apply in_or_app. now left.
Qed.

End Timetable.

(** X7: starting from a new student, after any sequence of calls no two
    active enrollments conflict with each other, in either order of
    asking. *)
Theorem enrollments_never_conflict (h : store) (n : string) (calls : list call) :
  ForallOrdPairs
    (fun e1 e2 => Enrollment.overlaps_with h e1 e2 = false
                  /\ Enrollment.overlaps_with h e2 e1 = false)
    (Student.enrollments (self (run (fresh h n) calls))).
Proof.
  apply timetable_run.
Qed.

(** X8: starting from a new student, after any sequence of calls every
    prerequisite of every actively enrolled course is in approved_courses,
    and so was passed by a pass_course call of that sequence. *)
Theorem enrolled_courses_have_prerequisites (h : store) (n : string)
        (calls : list call) :
  Forall (fun e =>
            Forall (fun p =>
                      In p (Student.approved_courses (self (run (fresh h n) calls)))
                      /\ In (PassCourse p) calls)
                   (Course.prerequisites (h (Enrollment.course e))))
         (Student.enrollments (self (run (fresh h n) calls))).
Proof.
  assert (Forall (fun e =>
            Forall (fun p =>
                      In p (Student.approved_courses (self (run (fresh h n) calls))))
                   (Course.prerequisites
                      (heap (run (fresh h n) calls) (Enrollment.course e))))
            (Student.enrollments (self (run (fresh h n) calls)))) as Hreq.
  { apply (run_invariant
             (fun w => Forall (fun e =>
                Forall (fun p => In p (Student.approved_courses (self w)))
                       (Course.prerequisites (heap w (Enrollment.course e))))
                (Student.enrollments (self w)))).
    - apply requirements_step.
    - constructor. }
  rewrite run_heap in Hreq. simpl in Hreq.
  eapply Forall_impl; [| exact Hreq]. intros e He.
  eapply Forall_impl; [| exact He]. intros p Hp. split; [exact Hp |].
  apply approved_after_run in Hp as [[] | Hp]. exact Hp.
Qed.

(** ** How the operations compose *)

Section Composition.

Lemma enrolled_stays (course : ref) (w : world) (c : call) :
  Student.already_enrolled (self w) course = true ->
  Student.already_enrolled (self (step w c)) course = true.
Proof.
  intros Hw.
  destruct (step_cases w c)
    as [(x & l & _ & _ & ->) | [(l & ->) | [(x & _ & _ & ->) | ->]]];
    simpl; trivial.
  unfold Student.already_enrolled in *; simpl.
  rewrite existsb_app, Hw. reflexivity.
Qed.

Lemma enrolled_after_accept (course : ref) (w : world) (line : string) :
  Student.already_enrolled
    (self (print line (append_enrollment (Enrollment.Enrollment course) w)))
    course = true.
Proof.
  unfold Student.already_enrolled; simpl.
  rewrite existsb_app; simpl. rewrite Pos.eqb_refl. apply orb_true_r.
Qed.

Lemma enrolled_refused (w : world) (course : ref) :
  Student.already_enrolled (self w) course = true ->
  can_enroll_in w course = (false, "You are already enrolled in this course.").
Proof.
  unfold can_enroll_in, Student.can_enroll_in. now intros ->.
Qed.

Lemma contains_snoc (xs : list ref) (p q : ref) :
  Student.contains (xs ++ [p]) q = Student.contains xs q || Pos.eqb q p.
Proof.
  unfold Student.contains. rewrite existsb_app; simpl. now rewrite orb_false_r.
Qed.

(** Appending [p] to the approved courses changes the outcome of the
    prerequisite loop only when [p] was the first one missing. *)
Lemma first_missing_after_pass (approved prereqs : list ref) (p : ref) :
  Student.first_missing approved prereqs = Some p
  \/ Student.first_missing (approved ++ [p]) prereqs
     = Student.first_missing approved prereqs.
Proof.
  induction prereqs as [| q rest IH]; simpl; [now right |].
  rewrite contains_snoc.
  destruct (Student.contains approved q); simpl; [exact IH |].
  destruct (Pos.eqb_spec q p) as [-> | Hne]; simpl.
  - now left.
  - now right.
Qed.

Lemma pass_course_decision (w : world) (p course : ref) :
  can_enroll_in (pass_course p w) course = can_enroll_in w course
  \/ (Student.already_enrolled (self w) course = false
      /\ Student.first_missing (Student.approved_courses (self w))
                               (Course.prerequisites (heap w course)) = Some p).
Proof.
  unfold pass_course. destruct (negb _); [| now left].
  unfold can_enroll_in, Student.can_enroll_in, Student.total_credits,
    Student.already_enrolled; simpl.
  destruct (existsb _ (Student.enrollments (self w))); [now left |].
  destruct (first_missing_after_pass (Student.approved_courses (self w))
              (Course.prerequisites (heap w course)) p) as [E | E].
  - right. auto.
  - left. now rewrite E.
Qed.

Lemma sum_at_least_length (h : store) (es : list Enrollment.t) (acc : Z) :
  (forall r, 1 <= Course.credits (h r)) ->
  acc + Z.of_nat (List.length es)
  <= fold_left (fun a e => a + Course.credits (h (Enrollment.course e))) es acc.
Proof.
  intros Hpos. revert acc. induction es as [| e es IH]; intros acc; simpl List.length.
  - simpl. lia.
  - simpl fold_left. specialize (IH (acc + Course.credits (h (Enrollment.course e)))).
    specialize (Hpos (Enrollment.course e)). lia.
Qed.

End Composition.

(** X9: once enroll_in has accepted a course, every later can_enroll_in
    for that course object is refused with the already-enrolled reason,
    whatever calls were made in between. *)
Theorem accepted_course_stays_enrolled (w : world) (course : ref)
        (calls : list call) :
  fst (can_enroll_in w course) = true ->
  can_enroll_in (run (enroll_in course w) calls) course
  = (false, "You are already enrolled in this course.").
Proof.
  intros Hok. apply enrolled_refused.
  apply (run_invariant
           (fun w' => Student.already_enrolled (self w') course = true)).
  - intros w' c. apply enrolled_stays.
  - destruct (enroll_in_success w course Hok) as [line ->].
    apply enrolled_after_accept.
Qed.

Lemma accepted_course_stays_enrolled_witness :
  can_enroll_in
    (run (enroll_in Main.prog1_ref Main.student)
         [PassCourse Main.prog1_ref; EnrollIn Main.prog2_ref])
    Main.prog1_ref
  = (false, "You are already enrolled in this course.").
Proof.
  apply (accepted_course_stays_enrolled Main.student Main.prog1_ref).
  reflexivity.
Defined.

(** X10: calling enroll_in a second time with the same course leaves the
    student and the courses as the first call left them, whether the first
    call was accepted or refused. *)
Theorem enroll_in_twice (w : world) (course : ref) :
  self (enroll_in course (enroll_in course w)) = self (enroll_in course w)
  /\ heap (enroll_in course (enroll_in course w)) = heap (enroll_in course w).
Proof.
  assert (fst (can_enroll_in (enroll_in course w) course) = false) as Hno.
  { destruct (fst (can_enroll_in w course)) eqn:Hok.
    - destruct (enroll_in_success w course Hok) as [line ->].
      now rewrite (enrolled_refused _ _ (enrolled_after_accept course w line)).
    - destruct (enroll_in_failure w course Hok) as [line ->]. exact Hok. }
  destruct (enroll_in_failure _ _ Hno) as [line ->]. split; reflexivity.
Qed.

(** X11: pass_course(p) changes the answer of can_enroll_in for a course
    only when that answer was the missing-prerequisite refusal naming p;
    every other answer, acceptance included, is unchanged. *)
Theorem pass_course_changes_only_its_refusal (w : world) (p course : ref) :
  can_enroll_in (pass_course p w) course = can_enroll_in w course
  \/ can_enroll_in w course
     = (false, "Missing prerequisite: " ++ Course.code (heap w p)).
Proof.
  destruct (pass_course_decision w p course) as [E | [Hne Hp]]; [now left |].
  right. unfold can_enroll_in, Student.can_enroll_in. now rewrite Hne, Hp.
Qed.

(** X12: a course the student may enroll in stays enrollable after any
    pass_course call. *)
Theorem pass_course_keeps_eligibility (w : world) (p course : ref) :
  fst (can_enroll_in w course) = true ->
  fst (can_enroll_in (pass_course p w) course) = true.
Proof.
  intros Hok.
  destruct (pass_course_decision w p course) as [-> | [_ Hp]]; [exact Hok |].
  apply accepted_tests in Hok as (_ & Hnone & _). congruence.
Qed.

Lemma pass_course_keeps_eligibility_witness :
  fst (can_enroll_in (pass_course Main.prog2_ref Main.student) Main.mat1_ref) = true.
Proof.
  apply (pass_course_keeps_eligibility Main.student Main.prog2_ref Main.mat1_ref).
  reflexivity.
Defined.

(** X13: when every course carries at least one credit, a student who
    started with no enrollment never holds more than 24 active
    enrollments. *)
Theorem at_most_24_enrollments (h : store) (n : string) (calls : list call) :
  (forall r, 1 <= Course.credits (h r)) ->
  (List.length (Student.enrollments (self (run (fresh h n) calls))) <= 24)%nat.
Proof.
  intros Hpos.
  assert (total_credits (run (fresh h n) calls) <= 24) as Hbound
    by (apply run_keeps_bound; unfold total_credits, Student.total_credits;
        simpl; lia).
  unfold total_credits, Student.total_credits in Hbound.
  rewrite run_heap in Hbound. simpl heap in Hbound.
  pose proof (sum_at_least_length h
                (Student.enrollments (self (run (fresh h n) calls))) 0 Hpos).
  lia.
Qed.

Lemma at_most_24_enrollments_witness :
  (List.length (Student.enrollments
             (self (run (fresh Examples.courses "Ada")
                        [EnrollIn 1%positive; EnrollIn 2%positive]))) <= 24)%nat.
Proof.
  apply (at_most_24_enrollments Examples.courses "Ada").
  intros r. unfold Examples.courses. destruct (Pos.eqb r 1); simpl; lia.
Defined.


(** ** Rendering a slot *)

Section Rendering.

Lemma digit_inj (n m : N) :
  (n < 10)%N -> (m < 10)%N -> Time.digit n = Time.digit m -> n = m.
Proof.
  unfold Time.digit. intros Hn Hm E.
  apply (f_equal N_of_ascii) in E.
  rewrite !N_ascii_embedding in E by lia. lia.
Qed.

Lemma two_digits_inj (n m : N) :
  (n < 100)%N -> (m < 100)%N -> Time.two_digits n = Time.two_digits m -> n = m.
Proof.
  unfold Time.two_digits. intros Hn Hm [= Ehi Elo].
  apply digit_inj in Ehi;
    [| apply N.Div0.div_lt_upper_bound; lia | apply N.Div0.div_lt_upper_bound; lia].
  apply digit_inj in Elo; [| apply N.mod_lt; lia | apply N.mod_lt; lia].
  rewrite (N.div_mod n 10), (N.div_mod m 10) by lia. congruence.
Qed.

Lemma strftime_HM_inj (x y : Time.t) :
  Time.in_range x -> Time.in_range y ->
  Time.strftime_HM x = Time.strftime_HM y ->
  Time.hour x = Time.hour y /\ Time.minute x = Time.minute y.
Proof.
  unfold Time.in_range, Time.strftime_HM. intros [Hx Mx] [Hy My]; simpl.
  intros [= E1 E2 E3 E4].
  split; apply two_digits_inj; try lia; unfold Time.two_digits; congruence.
Qed.

Lemma strftime_HM_length (x : Time.t) : String.length (Time.strftime_HM x) = 5%nat.
Proof. reflexivity. Qed.

Lemma length_append (s t : string) :
  String.length (s ++ t) = (String.length s + String.length t)%nat.
Proof. induction s as [| c s IH]; simpl; [reflexivity | now rewrite IH]. Qed.

(** Two texts that end in tails of the same length agree part by part. *)
Lemma append_same_tail_length (s1 s2 t1 t2 : string) :
  String.length t1 = String.length t2 ->
  s1 ++ t1 = s2 ++ t2 -> s1 = s2 /\ t1 = t2.
Proof.
  intros Hlen. revert s2.
  induction s1 as [| c s1 IH]; intros [| d s2] E; simpl in E.
  - auto.
  - apply (f_equal String.length) in E. simpl in E.
    rewrite length_append in E. lia.
  - apply (f_equal String.length) in E. simpl in E.
    rewrite length_append in E. lia.
  - injection E as -> E. destruct (IH s2 E) as [-> ->]. auto.
Qed.

End Rendering.

(** X15: for slots whose times lie in the ranges [time] accepts, the text
    of [Schedule.__str__] determines the day and the hour and minute of
    both ends: two slots that print alike agree on all five. *)
Theorem schedule_str_injective (a b : Schedule.t) :
  Time.in_range (Schedule.start a) -> Time.in_range (Schedule.end_ a) ->
  Time.in_range (Schedule.start b) -> Time.in_range (Schedule.end_ b) ->
  Schedule.str a = Schedule.str b ->
  Schedule.day a = Schedule.day b
  /\ Time.hour (Schedule.start a) = Time.hour (Schedule.start b)
  /\ Time.minute (Schedule.start a) = Time.minute (Schedule.start b)
  /\ Time.hour (Schedule.end_ a) = Time.hour (Schedule.end_ b)
  /\ Time.minute (Schedule.end_ a) = Time.minute (Schedule.end_ b).
Proof.
  intros Hsa Hea Hsb Heb E. unfold Schedule.str in E.
  apply append_same_tail_length in E as [Hday E]; [| reflexivity].
  split; [exact Hday |].
  apply (append_same_tail_length " from " " from ") in E as [_ E];
    [| now rewrite !length_append, !strftime_HM_length].
  apply append_same_tail_length in E as [Hs E]; [| reflexivity].
  apply (append_same_tail_length " to " " to ") in E as [_ He];
    [| now rewrite !strftime_HM_length].
  destruct (strftime_HM_inj _ _ Hsa Hsb Hs), (strftime_HM_inj _ _ Hea Heb He).
  auto.
Qed.

Lemma schedule_str_injective_witness :
  Schedule.day (Schedule.Schedule "Monday" (Main.hm 8 0) (Main.hm 10 0))
  = Schedule.day (Schedule.Schedule "Monday" (Time.time 8 0 30 0) (Main.hm 10 0))
  /\ Time.hour (Main.hm 8 0) = Time.hour (Time.time 8 0 30 0)
  /\ Time.minute (Main.hm 8 0) = Time.minute (Time.time 8 0 30 0)
  /\ Time.hour (Main.hm 10 0) = Time.hour (Main.hm 10 0)
  /\ Time.minute (Main.hm 10 0) = Time.minute (Main.hm 10 0).
Proof.
  apply (schedule_str_injective
           (Schedule.Schedule "Monday" (Main.hm 8 0) (Main.hm 10 0))
           (Schedule.Schedule "Monday" (Time.time 8 0 30 0) (Main.hm 10 0)));
    try (unfold Time.in_range; simpl; lia).
  reflexivity.
Defined.

(** ** Courses built with the default arguments *)

(** X16: a course constructed without prerequisites and without schedule
    slots (the arguments left out, or given as empty lists) is accepted
    exactly when the student is not already enrolled in it and its credits
    fit under the ceiling: the prerequisite and overlap rules never refuse
    it. *)
Theorem default_course_acceptance (w : world) (course : ref)
        (code name : string) (credits semester : Z)
        (prerequisites : option (list ref))
        (schedules : option (list Schedule.t)) :
  prerequisites = None \/ prerequisites = Some [] ->
  schedules = None \/ schedules = Some [] ->
  heap w course = Course.init code name credits semester prerequisites schedules ->
  (fst (can_enroll_in w course) = true <->
   (forall e, In e (Student.enrollments (self w)) -> Enrollment.course e <> course)
   /\ total_credits w + credits <= 24).
Proof.
  intros Hp Hs Hc. rewrite flag_iff_valid, accepted_iff.
  unfold not_enrolled, prerequisites_met, credits_fit, some_conflict. rewrite Hc.
  assert (Course.or_empty prerequisites = []) as Ep by (destruct Hp; now subst).
  assert (Course.or_empty schedules = []) as Es by (destruct Hs; now subst).
  unfold Course.init; simpl. rewrite Ep, Es; simpl. split.
  - intros (Hne & _ & Hfit & _). auto.
  - intros (Hne & Hfit). repeat split; trivial.
    + intros p [].
    + intros (e & s1 & s2 & _ & [] & _).
Qed.

Lemma default_course_acceptance_witness :
  fst (can_enroll_in (fresh Examples.plain_courses "Ada") 1%positive) = true <->
  (forall e, In e (Student.enrollments (self (fresh Examples.plain_courses "Ada"))) ->
             Enrollment.course e <> 1%positive)
  /\ total_credits (fresh Examples.plain_courses "Ada") + 3 <= 24.
Proof.
  apply (default_course_acceptance (fresh Examples.plain_courses "Ada") 1%positive
           "GEN100" "General Studies" 3 1 None None).
  - now left.
  - now left.
  - reflexivity.
Defined.
